(** * AI usefulness checker: keyword scoring and score aggregation

    A shallow embedding of the two core functions of [ai_usefulness_app.py],
    [analyze_dimensions] and [compute_ai_usefulness], and the properties of
    the keyword scoring and of the hard-stop cap; and of the results
    section of the page that calls them ([Page]).

    Conventions of the embedding.
    - The question text is a [string] whose characters are the code points
      0..255 (Latin-1); Python's [str.lower] is [lower] on them.  Texts with
      code points above 255 are outside the model.
    - The rationale literals are kept as they are written in the source
      (their arrow is held as its UTF-8 bytes); only their identity and
      order matter.
    - Python integers are [Z].  The aggregator returns either the clamped
      integer or the float literal [3.0]; [number] keeps the two apart and
      [value] reads both as a rational.
    - The function body mutates two locals, the list [reasons] (by
      [append]) and the flag [hard_stop]; they are threaded through a small
      state monad over [locals]. *)

From Stdlib Require Import ZArith QArith Qabs Bool List String Ascii Lia.
From Stdlib Require Import DecimalString.
Import ListNotations.

Local Open Scope string_scope.
Local Open Scope Z_scope.

(** ** Strings: [str.lower] and the [in] operator *)

Module Str.

(** [c.lower()] on a code point below 256: the ASCII capitals and the
    Latin-1 capitals (all of 0xC0..0xDE but the multiplication sign 0xD7)
    move up by 32; every other character is kept. *)
Definition lower_char (c : ascii) : ascii :=
  let n := N_of_ascii c in
  if ((65 <=? n) && (n <=? 90))%N
     || ((192 <=? n) && (n <=? 222) && negb (n =? 215))%N
  then ascii_of_N (n + 32)
  else c.

(** [text.lower()] *)
Fixpoint lower (s : string) : string :=
  match s with
  | EmptyString => EmptyString
  | String c s' => String (lower_char c) (lower s')
  end.

(** [term in t]: [term] starts at some position of [t] (the empty term is
    in every text). *)
Fixpoint contains (term t : string) : bool :=
  prefix term t ||
  match t with
  | EmptyString => false
  | String _ t' => contains term t'
  end.

(** What [term in t] decides: [t] is some text, then [term], then some
    text. *)
Definition Substring (term t : string) : Prop :=
  exists pre post, t = pre ++ term ++ post.

End Str.

Import Str.

(** [any(term in t for term in terms)] *)
Definition any_in (terms : list string) (t : string) : bool :=
  existsb (fun term => contains term t) terms.

(** [sum(term in t for term in terms)]: [True] counts 1, [False] counts 0. *)
Definition sum_in (terms : list string) (t : string) : Z :=
  fold_left (fun acc term => acc + (if contains term t then 1 else 0)) terms 0.

(** ** The trigger phrase tables *)

Definition time_critical_terms : list string :=
  [ "code blue"; "cardiac arrest"; "pulseless"; "pea"; "vfib"; "v-fib";
    "vtach"; "v-tach"; "rapid response"; "rrt"; "stat"; "immediately";
    "right now"; "need to decide now"; "crashing"; "severe hypotension";
    "shock"; "tpa"; "t-pa"; "alteplase"; "stroke code"; "activate stroke";
    "massive bleed"; "massive hemor"; "massive hemorrhage"; "intubate now";
    "emergent intubation"; "emergent cath"; "stemi activation" ].

Definition medium_urgency_terms : list string :=
  [ "today"; "within the hour"; "this hour"; "soon"; "acutely" ].

Definition high_risk_terms : list string :=
  [ "tpa"; "thrombolysis"; "thrombolytics"; "alteplase";
    "push dose"; "push-dose"; "bolus pressor"; "pressors"; "vasopressor";
    "levophed"; "norepinephrine"; "epinephrine"; "dopamine"; "dobutamine";
    "amiodarone bolus"; "lidocaine bolus"; "chemo"; "chemotherapy";
    "intubate"; "extubate"; "ecmo"; "lvad"; "vent settings"; "crrt";
    "dialysis initiation"; "emergent surgery" ].

Definition low_risk_terms : list string :=
  [ "explain"; "counsel"; "board prep"; "studying"; "education";
    "for teaching"; "for teaching purposes"; "long-term management";
    "in general"; "overall strategy" ].

Definition protocol_terms : list string :=
  [ "hospital protocol"; "institutional protocol"; "order set"; "orderset";
    "nomogram"; "policy"; "local protocol"; "stroke protocol";
    "sepsis bundle"; "vent weaning protocol"; "insulin drip protocol";
    "heparin drip protocol"; "dka protocol" ].

Definition mixed_terms : list string :=
  [ "our hospital"; "at our institution"; "formulary" ].

Definition evidence_terms : list string :=
  [ "evidence"; "literature"; "trial"; "trials"; "rct"; "randomized";
    "meta-analysis"; "meta analysis"; "systematic review"; "cohort study";
    "compare"; "comparison"; "noninferior"; "non-inferior";
    "superior"; "mortality benefit"; "outcomes of"; "hazard ratio";
    "guideline"; "guidelines"; "class i recommendation"; "class ii";
    "class 1"; "aha"; "acc"; "esc"; "chest guideline" ].

Definition teaching_terms : list string :=
  [ "explain to a patient"; "explain to patient"; "how to explain";
    "how to counsel"; "counseling"; "patient-friendly"; "plain language";
    "teach an intern"; "teach a medical student"; "for teaching";
    "for education"; "board prep"; "for studying"; "moc";
    "simple explanation"; "lay terms" ].

Definition mild_edu_terms : list string :=
  [ "understand the mechanism"; "pathophysiology"; "why does";
    "mechanism of" ].

(** ** The locals the body mutates, and the monad that threads them *)

Record locals : Type := mkLocals {
  l_reasons : list string;
  l_hard_stop : bool
}.

Definition M (A : Type) : Type := locals -> A * locals.

Definition ret {A : Type} (a : A) : M A := fun s => (a, s).

Definition bind {A B : Type} (m : M A) (k : A -> M B) : M B :=
  fun s => let (a, s') := m s in k a s'.

Declare Scope py_scope.
Delimit Scope py_scope with py.
Notation "x <- m ;; k" := (bind m (fun x => k))
  (at level 61, m at next level, right associativity) : py_scope.
Notation "m ;; k" := (bind m (fun _ => k))
  (at level 61, right associativity) : py_scope.

(** [reasons = []] *)
Definition reasons_new : M unit :=
  fun s => (tt, mkLocals [] (l_hard_stop s)).

(** [reasons.append(r)] *)
Definition reasons_append (r : string) : M unit :=
  fun s => (tt, mkLocals (l_reasons s ++ [r]) (l_hard_stop s)).

(** [hard_stop = b] *)
Definition hard_stop_assign (b : bool) : M unit :=
  fun s => (tt, mkLocals (l_reasons s) b).

Definition get_reasons : M (list string) := fun s => (l_reasons s, s).
Definition get_hard_stop : M bool := fun s => (l_hard_stop s, s).

Local Open Scope py_scope.

(** ** [analyze_dimensions] *)

(** 1. Time urgency: [time_urgency = 2] unless a tier fires. *)
Definition time_urgency_block (t : string) : M Z :=
  let time_urgency := 2 in
  if any_in time_critical_terms t then
    reasons_append
      "Detected **time-critical / crashing context** → urgency set to HIGH." ;;
    hard_stop_assign true ;;
    ret 0
  else if any_in medium_urgency_terms t then
    reasons_append
      "Detected **some time pressure** → urgency set to MODERATE." ;;
    ret 1
  else
    reasons_append "No strong urgency language → urgency set to LOW." ;;
    ret time_urgency.

(** 2. Risk level: [risk_level = 1] unless a tier fires. *)
Definition risk_level_block (t : string) : M Z :=
  let risk_level := 1 in
  if any_in high_risk_terms t then
    reasons_append
      "Detected **high-stakes intervention language** → risk level set to HIGH." ;;
    hard_stop_assign true ;;
    ret 0
  else if any_in low_risk_terms t then
    reasons_append
      "Detected **educational / low-risk framing** → risk level set to LOW." ;;
    ret 2
  else
    reasons_append
      "No extreme risk terms detected → risk level set to MODERATE." ;;
    ret risk_level.

(** 3. Protocol dependence: [protocol_independence = 2] unless a tier
    fires. *)
Definition protocol_independence_block (t : string) : M Z :=
  let protocol_independence := 2 in
  if any_in protocol_terms t then
    reasons_append
      "Detected **hospital-specific / protocol language** → protocol-independence set to LOW." ;;
    ret 0
  else if any_in mixed_terms t then
    reasons_append
      "Detected **some local context language** → protocol-independence set to MODERATE." ;;
    ret 1
  else
    reasons_append
      "No protocol language → protocol-independence set to HIGH." ;;
    ret protocol_independence.

(** 4. Evidence orientation: [evidence_orientation = 0] unless a term is
    hit; the hits are then counted. *)
Definition evidence_orientation_block (t : string) : M Z :=
  let evidence_orientation := 0 in
  if any_in evidence_terms t then
    let hit_count := sum_in evidence_terms t in
    if 2 <=? hit_count then
      reasons_append
        "Multiple **evidence/guideline cues** detected → evidence-orientation set to HIGH." ;;
      ret 2
    else
      reasons_append
        "Some **evidence/guideline language** → evidence-orientation set to MODERATE." ;;
      ret 1
  else
    reasons_append
      "No obvious evidence/guideline cues → evidence-orientation set to LOW." ;;
    ret evidence_orientation.

(** 5. Educational frame: [educational_frame = 0] unless a tier fires. *)
Definition educational_frame_block (t : string) : M Z :=
  let educational_frame := 0 in
  if any_in teaching_terms t then
    reasons_append
      "Detected **teaching / patient-education focus** → educational-frame set to HIGH." ;;
    ret 2
  else if any_in mild_edu_terms t then
    reasons_append
      "Detected **mechanism / understanding focus** → educational-frame set to MODERATE." ;;
    ret 1
  else
    reasons_append
      "No explicit educational framing → educational-frame set to LOW." ;;
    ret educational_frame.

(** The dictionary [analyze_dimensions] returns and [compute_ai_usefulness]
    reads: seven fixed keys. *)
Record dim : Type := mkDim {
  time_urgency : Z;
  risk_level : Z;
  protocol_independence : Z;
  evidence_orientation : Z;
  educational_frame : Z;
  reasons : list string;
  hard_stop : bool
}.

(** The body of [analyze_dimensions], statement by statement. *)
Definition analyze_dimensions_body (text : string) : M dim :=
  let t := lower text in
  reasons_new ;;
  hard_stop_assign false ;;
  time_urgency <- time_urgency_block t ;;
  risk_level <- risk_level_block t ;;
  protocol_independence <- protocol_independence_block t ;;
  evidence_orientation <- evidence_orientation_block t ;;
  educational_frame <- educational_frame_block t ;;
  reasons <- get_reasons ;;
  hard_stop <- get_hard_stop ;;
  ret (mkDim time_urgency risk_level protocol_independence
         evidence_orientation educational_frame reasons hard_stop).

(** A call runs the body on a new frame; the body assigns both locals
    before it reads them, so what the frame holds does not matter
    ([analyze_dimensions_body_frame] below). *)
Definition new_frame : locals := mkLocals [] false.

Definition analyze_dimensions (text : string) : dim :=
  fst (analyze_dimensions_body text new_frame).

(** ** [compute_ai_usefulness] *)

(** A Python number: the aggregator returns an [int], or the [float]
    literal [3.0] when the cap applies. *)
Inductive number : Type :=
  | PyInt (z : Z)
  | PyFloat (q : Q).

Definition value (n : number) : Q :=
  match n with
  | PyInt z => inject_Z z
  | PyFloat q => q
  end.

Definition compute_ai_usefulness (dim : dim) : number :=
  let tu := time_urgency dim in
  let rl := risk_level dim in
  let pi := protocol_independence dim in
  let eo := evidence_orientation dim in
  let ef := educational_frame dim in
  let score := (2 - tu) * 2 + rl * 2 + pi * 2 + eo * 2 + ef * 1 in
  let score := Z.max 0 (Z.min 10 score) in
  if hard_stop dim && (3 <? score) then PyFloat 3 else PyInt score.

(** ** Reading the code against the specification

    The definitions below are not part of the program: they restate, in the
    specification's words, what the theorems compare the code with. *)

(** The weighted sum of the aggregator, before clamping. *)
Definition raw_score (d : dim) : Z :=
  (2 - time_urgency d) * 2
  + risk_level d * 2
  + protocol_independence d * 2
  + evidence_orientation d * 2
  + educational_frame d * 1.

(** [max(0, min(10, raw))] *)
Definition clamped_score (d : dim) : Z :=
  Z.max 0 (Z.min 10 (raw_score d)).

(** The aggregate as the specification words it: the clamped value when
    [hard_stop] is false or the clamped value is at most 3, and 3.0
    otherwise. *)
Definition spec_usefulness (d : dim) : Q :=
  if negb (hard_stop d) || (clamped_score d <=? 3)
  then inject_Z (clamped_score d)
  else 3.

(** Every dimension score lies in the closed range 0..2. *)
Definition scores_in_range (d : dim) : Prop :=
  0 <= time_urgency d <= 2 /\
  0 <= risk_level d <= 2 /\
  0 <= protocol_independence d <= 2 /\
  0 <= evidence_orientation d <= 2 /\
  0 <= educational_frame d <= 2.

(** The phrases of [terms] that occur in [t], in table order. *)
Definition hits (terms : list string) (t : string) : list string :=
  filter (fun term => contains term t) terms.

(** The score of the evidence dimension for a number of hits. *)
Definition evidence_tier (count : nat) : Z :=
  match count with
  | O => 0
  | S O => 1
  | S (S _) => 2
  end.

(** The tiers of each dimension: the score a tier assigns and the rationale
    it appends. *)
Definition time_urgency_tiers : list (Z * string) :=
  [ (0, "Detected **time-critical / crashing context** → urgency set to HIGH.");
    (1, "Detected **some time pressure** → urgency set to MODERATE.");
    (2, "No strong urgency language → urgency set to LOW.") ].

Definition risk_level_tiers : list (Z * string) :=
  [ (0, "Detected **high-stakes intervention language** → risk level set to HIGH.");
    (2, "Detected **educational / low-risk framing** → risk level set to LOW.");
    (1, "No extreme risk terms detected → risk level set to MODERATE.") ].

Definition protocol_independence_tiers : list (Z * string) :=
  [ (0, "Detected **hospital-specific / protocol language** → protocol-independence set to LOW.");
    (1, "Detected **some local context language** → protocol-independence set to MODERATE.");
    (2, "No protocol language → protocol-independence set to HIGH.") ].

Definition evidence_orientation_tiers : list (Z * string) :=
  [ (2, "Multiple **evidence/guideline cues** detected → evidence-orientation set to HIGH.");
    (1, "Some **evidence/guideline language** → evidence-orientation set to MODERATE.");
    (0, "No obvious evidence/guideline cues → evidence-orientation set to LOW.") ].

Definition educational_frame_tiers : list (Z * string) :=
  [ (2, "Detected **teaching / patient-education focus** → educational-frame set to HIGH.");
    (1, "Detected **mechanism / understanding focus** → educational-frame set to MODERATE.");
    (0, "No explicit educational framing → educational-frame set to LOW.") ].

(** All fifteen rationales, dimension by dimension. *)
Definition all_rationales : list string :=
  map snd (time_urgency_tiers ++ risk_level_tiers
           ++ protocol_independence_tiers ++ evidence_orientation_tiers
           ++ educational_frame_tiers).

(** ** The results section of the page

    The part of the script that runs the two functions (the [if st.button(...)
    and question.strip():] block).  The Streamlit calls it makes are
    collected, in order, as a list of [widget]s; [None] stands for a raised
    exception. *)

Module Page.

(** [c.isspace()] on a code point below 256: tab to carriage return,
    the four separators 0x1C..0x1F, space, NEL (0x85) and the no-break
    space (0xA0). *)
Definition isspace (c : ascii) : bool :=
  let n := N_of_ascii c in
  (((9 <=? n) && (n <=? 13)) || ((28 <=? n) && (n <=? 32))
   || (n =? 133) || (n =? 160))%N.

(** [s.lstrip()] *)
Fixpoint lstrip (s : string) : string :=
  match s with
  | EmptyString => EmptyString
  | String c s' => if isspace c then lstrip s' else s
  end.

(** [s.rstrip()] *)
Fixpoint rstrip (s : string) : string :=
  match s with
  | EmptyString => EmptyString
  | String c s' =>
      match rstrip s' with
      | EmptyString => if isspace c then EmptyString else String c EmptyString
      | String c' r => String c (String c' r)
      end
  end.

(** [s.strip()]: whitespace removed at both ends. *)
Definition strip (s : string) : string := rstrip (lstrip s).

(** Truth value of a string: non-empty. *)
Definition truthy (s : string) : bool :=
  match s with
  | EmptyString => false
  | String _ _ => true
  end.

(** [score <= k] for an [int] or [float] score and an integer literal. *)
Definition num_le (score : number) (k : Z) : bool :=
  match score with
  | PyInt z => z <=? k
  | PyFloat q => Qle_bool q (inject_Z k)
  end.

(** The [if score <= 3 / elif score <= 7 / else] of the script: the
    [label], [color] and [summary] it assigns. *)
Definition band (score : number) : string * string * string :=
  if num_le score 3 then
    ("❌ AI not recommended as a starting point",
     "red",
     "This question likely involves **time-critical, high-risk, or protocol-driven decisions**. Prioritize **stabilizing the patient, using local protocols, and speaking with a senior/attending**. AI can still be used later for debriefing or education.")
  else if num_le score 7 then
    ("⚠️ Use AI only as an adjunct (and verify)",
     "orange",
     "AI may be helpful for **finding evidence, exploring options, and clarifying mechanisms**, but you should **cross-check with guidelines/UpToDate and your team** before changing management.")
  else
    ("✅ Great use-case for AI as an information helper",
     "green",
     "This looks like a good situation to use AI for **literature synthesis, guideline summaries, and explanations**. Still treat outputs as **informational**, not as direct orders.").

(** Nearest integer to [q], ties to even. *)
Definition round_half_even (q : Q) : Z :=
  let den := Z.pos (Qden q) in
  let lo := Qnum q / den in
  let r := Qnum q mod den in
  match 2 * r ?= den with
  | Lt => lo
  | Gt => lo + 1
  | Eq => if Z.even lo then lo else lo + 1
  end.

(** [float(z)] for an [int]: exact below 2**53, else rounded to 53
    significant bits (ties to even); [None] is the [OverflowError] of an
    integer that rounds to 2**1024 or more. *)
Definition int_to_float (z : Z) : option Q :=
  let a := Z.abs z in
  if a <? 2 ^ 53 then Some (inject_Z z)
  else
    let e := Z.log2 a - 52 in
    let m := round_half_even (inject_Z a / inject_Z (2 ^ e)) in
    let v := m * 2 ^ e in
    if 2 ^ 1024 <=? v then None else Some (inject_Z (Z.sgn z * v)).

(** Decimal digits of a natural number. *)
Definition decimal (n : Z) : string :=
  NilZero.string_of_uint (N.to_uint (Z.to_N n)).

(** [format(x, '.1f')] of a float: the value rounded to one decimal (ties
    to even), with the sign kept even when the digits round to zero. *)
Definition float_1f (x : Q) : string :=
  let n := round_half_even (Qabs x * 10) in
  (if Qle_bool 0 x then "" else "-")
  ++ decimal (n / 10) ++ "." ++ decimal (n mod 10).

(** [f"{score:.1f}"]: an [int] is converted to [float] first. *)
Definition format_1f (score : number) : option string :=
  match score with
  | PyInt z => option_map float_1f (int_to_float z)
  | PyFloat q => Some (float_1f q)
  end.

(** The Streamlit calls of the results section. *)
#[warnings="-register-all"]
Inductive widget : Type :=
  | markdown (body : string) (unsafe_allow_html : bool)
  | table (dimension : list string) (score : list Z)
  | expander (label : string) (children : list widget).

(** Lines 200-252: what the script renders for one run, given whether the
    button was clicked and the text of the question box. *)
Definition results_section (clicked : bool) (question : string)
  : option (list widget) :=
  if clicked && truthy (strip question) then
    let dim := analyze_dimensions question in
    let score := compute_ai_usefulness dim in
    let '(label, color, summary) := band score in
    match format_1f score with
    | None => None
    | Some shown =>
        let dim_table :=
          table
            [ "Time urgency (0–2, higher = less urgent)";
              "Risk level (0–2, higher = safer to experiment)";
              "Protocol independence (0–2)";
              "Evidence orientation (0–2)";
              "Educational frame (0–2)" ]
            [ time_urgency dim; risk_level dim; protocol_independence dim;
              evidence_orientation dim; educational_frame dim ] in
        Some
          [ markdown ("### AI Usefulness Score: **" ++ shown ++ "/10**") false;
            markdown
              ("**<span style='color:" ++ color ++ "'>" ++ label
               ++ "</span>**") true;
            markdown summary false;
            markdown "#### Dimension breakdown" false;
            dim_table;
            expander "Why did I get this score? (rules that fired)"
              (map (fun r => markdown ("- " ++ r) false) (reasons dim)) ]
    end
  else Some [].

End Page.

(** ** Reading the page and the tables against each other *)

(** Every trigger phrase of the nine tables. *)
Definition all_terms : list string :=
  time_critical_terms ++ medium_urgency_terms ++ high_risk_terms
  ++ low_risk_terms ++ protocol_terms ++ mixed_terms ++ evidence_terms
  ++ teaching_terms ++ mild_edu_terms.

(** A phrase that is not empty and neither starts nor ends with
    whitespace. *)
Fixpoint ends_solid (p : string) : bool :=
  match p with
  | EmptyString => false
  | String c EmptyString => negb (Page.isspace c)
  | String _ p' => ends_solid p'
  end.

Definition solid (p : string) : bool :=
  match p with
  | EmptyString => false
  | String c _ => negb (Page.isspace c) && ends_solid p
  end.

(** A text made of whitespace only (the empty text included). *)
Fixpoint blank (s : string) : bool :=
  match s with
  | EmptyString => true
  | String c s' => Page.isspace c && blank s'
  end.

(** ** Substring matching *)

Module StrFacts.

Lemma prefix_app (p s : string) :
  prefix p s = true <-> exists post, s = p ++ post.
Proof.
  revert s. induction p as [|c p IH]; intros s; simpl.
  - split; [intros _; exists s; reflexivity | intros _; now destruct s].
  - destruct s as [|c' s]; simpl.
    + split; [discriminate | intros [post H]; discriminate].
    + destruct (ascii_dec c c') as [->|Hne].
      * rewrite IH. split; intros [post H]; exists post.
        -- now rewrite H.
        -- now inversion H.
      * split; [discriminate | intros [post H]; congruence].
Qed.

Lemma contains_Substring (term t : string) :
  contains term t = true <-> Substring term t.
Proof.
  unfold Substring. induction t as [|c t IH]; cbn [contains].
  - rewrite orb_false_r, prefix_app. split.
    + intros [post H]. exists "", post. exact H.
    + intros [pre [post H]]. destruct pre as [|c pre]; [|discriminate].
      exists post. exact H.
  - rewrite orb_true_iff, prefix_app, IH. split.
    + intros [[post H] | [pre [post H]]].
      * exists "", post. exact H.
      * exists (String c pre), post. simpl. now rewrite H.
    + intros [pre [post H]]. destruct pre as [|c' pre]; simpl in H.
      * left. exists post. exact H.
      * right. exists pre, post. now inversion H.
Qed.

End StrFacts.

Import StrFacts.

(** ** The generator expressions *)

Lemma any_in_Substring (terms : list string) (t : string) :
  any_in terms t = true <->
  exists term, In term terms /\ Substring term t.
Proof.
  unfold any_in. rewrite existsb_exists.
  split; intros [term [Hin H]]; exists term; split; trivial;
    now apply contains_Substring.
Qed.

Lemma In_hits (terms : list string) (t term : string) :
  In term (hits terms t) <-> In term terms /\ Substring term t.
Proof.
  unfold hits. rewrite filter_In, contains_Substring. reflexivity.
Qed.

Lemma NoDup_hits (terms : list string) (t : string) :
  NoDup terms -> NoDup (hits terms t).
Proof. apply NoDup_filter. Qed.

Lemma sum_in_acc (terms : list string) (t : string) (acc : Z) :
  fold_left (fun acc term => acc + (if contains term t then 1 else 0))
    terms acc
  = acc + Z.of_nat (List.length (hits terms t)).
Proof.
  revert acc. induction terms as [|term terms IH]; intros acc; simpl.
  - lia.
  - rewrite IH. destruct (contains term t); simpl List.length; lia.
Qed.

Lemma sum_in_hits (terms : list string) (t : string) :
  sum_in terms t = Z.of_nat (List.length (hits terms t)).
Proof. unfold sum_in. now rewrite sum_in_acc. Qed.

Lemma any_in_hits (terms : list string) (t : string) :
  any_in terms t = false <-> hits terms t = [].
Proof.
  unfold any_in, hits. induction terms as [|term terms IH]; simpl.
  - tauto.
  - destruct (contains term t); simpl.
    + split; discriminate.
    + exact IH.
Qed.

Lemma evidence_terms_NoDup : NoDup evidence_terms.
Proof.
  apply (NoDup_count_occ' string_dec). intros term Hin.
  repeat (destruct Hin as [<- | Hin]; [reflexivity|]). destruct Hin.
Qed.

(** ** The five blocks, run from any frame

    Each block appends one rationale, the one of the tier whose score it
    returns; only the first two touch [hard_stop], and only to set it. *)

Ltac run_block :=
  unfold bind, reasons_append, hard_stop_assign, ret;
  cbn [l_reasons l_hard_stop];
  rewrite ?orb_true_r, ?orb_false_r;
  do 2 eexists; (split; [reflexivity | simpl; tauto]).

Lemma time_urgency_block_run (t : string) (s : locals) :
  exists v r,
    time_urgency_block t s
    = (v, mkLocals (l_reasons s ++ [r])
            (l_hard_stop s || any_in time_critical_terms t))
    /\ In (v, r) time_urgency_tiers.
Proof.
  unfold time_urgency_block.
  destruct (any_in time_critical_terms t);
    [|destruct (any_in medium_urgency_terms t)]; run_block.
Qed.

Lemma risk_level_block_run (t : string) (s : locals) :
  exists v r,
    risk_level_block t s
    = (v, mkLocals (l_reasons s ++ [r])
            (l_hard_stop s || any_in high_risk_terms t))
    /\ In (v, r) risk_level_tiers.
Proof.
  unfold risk_level_block.
  destruct (any_in high_risk_terms t);
    [|destruct (any_in low_risk_terms t)]; run_block.
Qed.

Lemma protocol_independence_block_run (t : string) (s : locals) :
  exists v r,
    protocol_independence_block t s
    = (v, mkLocals (l_reasons s ++ [r]) (l_hard_stop s))
    /\ In (v, r) protocol_independence_tiers.
Proof.
  unfold protocol_independence_block.
  destruct (any_in protocol_terms t);
    [|destruct (any_in mixed_terms t)]; run_block.
Qed.

Lemma evidence_orientation_block_run (t : string) (s : locals) :
  exists v r,
    evidence_orientation_block t s
    = (v, mkLocals (l_reasons s ++ [r]) (l_hard_stop s))
    /\ In (v, r) evidence_orientation_tiers.
Proof.
  unfold evidence_orientation_block.
  destruct (any_in evidence_terms t);
    [destruct (2 <=? sum_in evidence_terms t)|]; run_block.
Qed.

Lemma educational_frame_block_run (t : string) (s : locals) :
  exists v r,
    educational_frame_block t s
    = (v, mkLocals (l_reasons s ++ [r]) (l_hard_stop s))
    /\ In (v, r) educational_frame_tiers.
Proof.
  unfold educational_frame_block.
  destruct (any_in teaching_terms t);
    [|destruct (any_in mild_edu_terms t)]; run_block.
Qed.

(** The value of the evidence block is the tier of the number of hits. *)
Lemma evidence_orientation_block_value (t : string) (s : locals) :
  fst (evidence_orientation_block t s)
  = evidence_tier (List.length (hits evidence_terms t)).
Proof.
  unfold evidence_orientation_block.
  destruct (any_in evidence_terms t) eqn:Hany.
  - rewrite sum_in_hits.
    assert (Hne : hits evidence_terms t <> []).
    { intros H. apply any_in_hits in H. congruence. }
    destruct (hits evidence_terms t) as [|h1 [|h2 l]]; [congruence| |].
    + reflexivity.
    + replace (2 <=? _) with true; [reflexivity|].
      symmetry. apply Z.leb_le. simpl List.length. lia.
  - apply any_in_hits in Hany. rewrite Hany. reflexivity.
Qed.

(** ** The whole body *)

(** The body resets both locals first, so its run does not depend on the
    frame it starts from. *)
Lemma analyze_dimensions_body_frame (text : string) (s : locals) :
  analyze_dimensions_body text s = analyze_dimensions_body text new_frame.
Proof.
  unfold analyze_dimensions_body, new_frame.
  unfold bind at 1 2 10 11.
  unfold reasons_new, hard_stop_assign.
  cbn [l_reasons l_hard_stop]. reflexivity.
Qed.

(** One run of the body: five rationales, one per block and in block
    order, each paired with its score in the tier table; [hard_stop] is
    the disjunction of the two critical tiers. *)
Lemma analyze_dimensions_run (text : string) :
  exists tu r1 rl r2 pi r3 eo r4 ef r5,
    analyze_dimensions text
    = mkDim tu rl pi eo ef [r1; r2; r3; r4; r5]
        (any_in time_critical_terms (lower text)
         || any_in high_risk_terms (lower text))
    /\ In (tu, r1) time_urgency_tiers
    /\ In (rl, r2) risk_level_tiers
    /\ In (pi, r3) protocol_independence_tiers
    /\ In (eo, r4) evidence_orientation_tiers
    /\ In (ef, r5) educational_frame_tiers
    /\ eo = evidence_tier (List.length (hits evidence_terms (lower text))).
Proof.
  unfold analyze_dimensions, analyze_dimensions_body, new_frame.
  unfold bind at 1 2. unfold reasons_new, hard_stop_assign.
  cbn [l_reasons l_hard_stop].
  set (t := lower text).
  unfold bind at 1.
  destruct (time_urgency_block_run t (mkLocals [] false))
    as (tu & r1 & -> & H1).
  unfold bind at 1.
  match goal with |- context [risk_level_block t ?s] =>
    destruct (risk_level_block_run t s) as (rl & r2 & -> & H2) end.
  unfold bind at 1.
  match goal with |- context [protocol_independence_block t ?s] =>
    destruct (protocol_independence_block_run t s) as (pi & r3 & -> & H3) end.
  unfold bind at 1.
  match goal with |- context [evidence_orientation_block t ?s] =>
    pose proof (evidence_orientation_block_value t s) as Hv;
    destruct (evidence_orientation_block_run t s) as (eo & r4 & Heq & H4) end.
  rewrite Heq in Hv |- *. cbn [fst] in Hv.
  unfold bind at 1.
  match goal with |- context [educational_frame_block t ?s] =>
    destruct (educational_frame_block_run t s) as (ef & r5 & -> & H5) end.
  exists tu, r1, rl, r2, pi, r3, eo, r4, ef, r5.
  unfold bind, get_reasons, get_hard_stop, ret.
  cbn [fst l_reasons l_hard_stop app]. rewrite orb_false_l.
  repeat split; assumption.
Qed.

(** Every score the analyzer returns lies in 0..2. *)
Lemma analyze_dimensions_in_range (text : string) :
  scores_in_range (analyze_dimensions text).
Proof.
  destruct (analyze_dimensions_run text)
    as (tu & r1 & rl & r2 & pi & r3 & eo & r4 & ef & r5
        & -> & H1 & H2 & H3 & H4 & H5 & _).
  unfold scores_in_range. cbn [time_urgency risk_level
    protocol_independence evidence_orientation educational_frame].
  repeat split;
    match goal with
    | H : In (?v, _) _ |- context [?v] =>
        simpl in H;
        repeat (destruct H as [H | H]; [inversion H; lia|]); destruct H
    end.
Qed.

(** Two runs from the specification's scenarios. *)
Example code_blue_run :
  compute_ai_usefulness (analyze_dimensions "Code Blue") = PyFloat 3
  /\ raw_score (analyze_dimensions "Code Blue") = 10.
Proof. split; vm_compute; reflexivity. Qed.

Example evidence_guideline_run :
  compute_ai_usefulness (analyze_dimensions "evidence guideline") = PyInt 10
  /\ hard_stop (analyze_dimensions "evidence guideline") = false.
Proof. split; vm_compute; reflexivity. Qed.

(** ** The aggregator *)

Lemma compute_ai_usefulness_eq (d : dim) :
  compute_ai_usefulness d
  = if hard_stop d && (3 <? clamped_score d)
    then PyFloat 3
    else PyInt (clamped_score d).
Proof. reflexivity. Qed.

Lemma clamped_score_bounds (d : dim) : 0 <= clamped_score d <= 10.
Proof. unfold clamped_score. lia. Qed.

(** With the flag set the returned value is at most 3, whatever the five
    scores are. *)
Lemma hard_stop_caps (d : dim) :
  hard_stop d = true -> (value (compute_ai_usefulness d) <= 3)%Q.
Proof.
  intros Hs. rewrite compute_ai_usefulness_eq, Hs. cbn [andb].
  destruct (3 <? clamped_score d) eqn:Hlt; cbn [value].
  - apply Qle_refl.
  - apply Z.ltb_ge in Hlt. change 3%Q with (inject_Z 3).
    rewrite <- Zle_Qle. exact Hlt.
Qed.

(** The override never raises the clamped score. *)
Lemma compute_le_clamped (d : dim) :
  (value (compute_ai_usefulness d) <= inject_Z (clamped_score d))%Q.
Proof.
  rewrite compute_ai_usefulness_eq.
  destruct (hard_stop d && (3 <? clamped_score d)) eqn:Hc; cbn [value].
  - apply andb_true_iff in Hc. destruct Hc as [_ Hlt].
    apply Z.ltb_lt in Hlt. change 3%Q with (inject_Z 3).
    rewrite <- Zle_Qle. lia.
  - apply Qle_refl.
Qed.

(** * The claims *)

(** C1. For every input text, if the analysis sets [hard_stop] to true, the
    score the aggregator returns for that analysis is at most 3.0; and it
    stays at most 3.0 whatever values the dimension scores are replaced
    with, as long as the flag is set. *)
Theorem hard_stop_score_at_most_3 (text : string) :
  hard_stop (analyze_dimensions text) = true ->
  (value (compute_ai_usefulness (analyze_dimensions text)) <= 3)%Q
  /\ (forall tu rl pi eo ef : Z,
        (value (compute_ai_usefulness
                  (mkDim tu rl pi eo ef
                     (reasons (analyze_dimensions text)) true)) <= 3)%Q).
Proof.
  intros Hs. split.
  - now apply hard_stop_caps.
  - intros tu rl pi eo ef. now apply hard_stop_caps.
Qed.

Lemma hard_stop_score_at_most_3_witness :
  hard_stop (analyze_dimensions "STAT: code blue, explain the evidence and guidelines")
  = true
  /\ (value (compute_ai_usefulness
        (analyze_dimensions
           "STAT: code blue, explain the evidence and guidelines")) <= 3)%Q.
Proof.
  assert (H : hard_stop
                (analyze_dimensions
                   "STAT: code blue, explain the evidence and guidelines")
              = true) by (vm_compute; reflexivity).
  split; [exact H | exact (proj1 (hard_stop_score_at_most_3 _ H))].
Defined.

(** C2. For every input string, the [hard_stop] flag the analyzer returns
    is true if and only if some phrase of the time-critical table or some
    phrase of the high-stakes-intervention table is a substring of the
    lowercased input; no other detector sets it. *)
Theorem hard_stop_iff_critical_phrase (text : string) :
  hard_stop (analyze_dimensions text) = true <->
  exists term,
    (In term time_critical_terms \/ In term high_risk_terms)
    /\ Substring term (lower text).
Proof.
  destruct (analyze_dimensions_run text)
    as (tu & r1 & rl & r2 & pi & r3 & eo & r4 & ef & r5 & -> & _).
  cbn [hard_stop]. rewrite orb_true_iff, !any_in_Substring. split.
  - intros [[term [Hin H]] | [term [Hin H]]]; exists term; tauto.
  - intros [term [[Hin | Hin] H]]; [left | right]; exists term; tauto.
Qed.

(** C3. For every combination of dimension scores in 0..2 and every
    [hard_stop] flag: the weighted sum
    [(2 - time_urgency)*2 + risk_level*2 + protocol_independence*2
     + evidence_orientation*2 + educational_frame*1] lies in 0..18; the
    aggregator returns [max(0, min(10, raw))] when [hard_stop] is false or
    that clamped value is at most 3, and 3.0 otherwise; a raw value of 10
    or more saturates to exactly 10, without rescaling; and the result is
    in [0.0, 10.0]. *)
Theorem compute_ai_usefulness_spec (d : dim) :
  scores_in_range d ->
  let raw :=
    (2 - time_urgency d) * 2 + risk_level d * 2 + protocol_independence d * 2
    + evidence_orientation d * 2 + educational_frame d * 1 in
  let clamped := Z.max 0 (Z.min 10 raw) in
  0 <= raw <= 18
  /\ compute_ai_usefulness d
     = (if negb (hard_stop d) || (clamped <=? 3)
        then PyInt clamped else PyFloat 3)
  /\ (value (compute_ai_usefulness d) == spec_usefulness d)%Q
  /\ (10 <= raw <= 18 -> clamped = 10)
  /\ (10 <= raw <= 18 -> hard_stop d = false ->
      compute_ai_usefulness d = PyInt 10)
  /\ (0 <= value (compute_ai_usefulness d) <= 10)%Q.
Proof.
  intros (Htu & Hrl & Hpi & Heo & Hef) raw clamped.
  assert (Hcode : compute_ai_usefulness d
                  = if negb (hard_stop d) || (clamped <=? 3)
                    then PyInt clamped else PyFloat 3).
  { rewrite compute_ai_usefulness_eq.
    change (clamped_score d) with clamped.
    destruct (hard_stop d); cbn [negb andb orb]; [|reflexivity].
    rewrite Z.leb_antisym. now destruct (3 <? clamped). }
  split; [subst raw; lia|].
  split; [exact Hcode|].
  split.
  { rewrite Hcode. unfold spec_usefulness.
    change (clamped_score d) with clamped.
    destruct (negb (hard_stop d) || (clamped <=? 3)); apply Qeq_refl. }
  split; [subst clamped; lia|].
  split.
  { intros Hraw Hs. rewrite Hcode, Hs. cbn [negb orb].
    f_equal. subst clamped. lia. }
  rewrite Hcode.
  destruct (negb (hard_stop d) || (clamped <=? 3)); cbn [value].
  - change 0%Q with (inject_Z 0). change 10%Q with (inject_Z 10).
    rewrite <- !Zle_Qle. subst clamped. lia.
  - split; discriminate.
Qed.

Lemma compute_ai_usefulness_spec_witness :
  let d := mkDim 2 2 2 2 2 [] false in
  scores_in_range d
  /\ (2 - 2) * 2 + 2 * 2 + 2 * 2 + 2 * 2 + 2 * 1 = 14
  /\ compute_ai_usefulness d = PyInt 10.
Proof.
  split; [unfold scores_in_range; cbn; lia|].
  split; [reflexivity|].
  apply (compute_ai_usefulness_spec (mkDim 2 2 2 2 2 [] false)).
  - unfold scores_in_range; cbn; lia.
  - cbn; lia.
  - reflexivity.
Defined.

(** C4. For the empty input string the analyzer returns exactly
    time_urgency=2, risk_level=1, protocol_independence=2,
    evidence_orientation=0, educational_frame=0 and hard_stop=false (with
    the five default rationales), the raw score is 6, and the aggregator
    returns a score equal to 6.0 (the integer 6). *)
Theorem empty_input_scores_6 :
  analyze_dimensions ""
  = mkDim 2 1 2 0 0
      [ "No strong urgency language → urgency set to LOW.";
        "No extreme risk terms detected → risk level set to MODERATE.";
        "No protocol language → protocol-independence set to HIGH.";
        "No obvious evidence/guideline cues → evidence-orientation set to LOW.";
        "No explicit educational framing → educational-frame set to LOW." ]
      false
  /\ raw_score (analyze_dimensions "") = 6
  /\ compute_ai_usefulness (analyze_dimensions "") = PyInt 6
  /\ (value (compute_ai_usefulness (analyze_dimensions "")) == 6)%Q.
Proof. repeat split; vm_compute; reflexivity. Qed.

(** C5. For every input string, evidence_orientation is 2 when at least two
    phrases of the evidence table are substrings of the lowercased input,
    1 when exactly one is, and 0 when none is; the phrases counted are
    distinct, and they are exactly the table's phrases that occur in the
    text. *)
Theorem evidence_orientation_counts_hits (text : string) :
  let found := hits evidence_terms (lower text) in
  let count := List.length found in
  evidence_orientation (analyze_dimensions text)
  = (if (2 <=? count)%nat then 2 else if (count =? 1)%nat then 1 else 0)
  /\ NoDup found
  /\ (forall term,
        In term found <->
        In term evidence_terms /\ Substring term (lower text)).
Proof.
  intros found count. split; [|split].
  - destruct (analyze_dimensions_run text)
      as (tu & r1 & rl & r2 & pi & r3 & eo & r4 & ef & r5
          & -> & _ & _ & _ & _ & _ & ->).
    cbn [evidence_orientation]. fold found. fold count.
    destruct count as [|[|n]]; reflexivity.
  - apply NoDup_hits, evidence_terms_NoDup.
  - intros term. apply In_hits.
Qed.

(** C6. For the input "tpa" both the time-urgency and the risk-level
    detector fire their critical tier: time_urgency=0, risk_level=0,
    hard_stop=true, the other three dimensions keep their defaults
    (protocol_independence=2, evidence_orientation=0,
    educational_frame=0), the raw weighted score is 8, and the final score
    is capped to 3.0. *)
Theorem tpa_input_capped :
  any_in time_critical_terms (lower "tpa") = true
  /\ any_in high_risk_terms (lower "tpa") = true
  /\ analyze_dimensions "tpa"
     = mkDim 0 0 2 0 0
         [ "Detected **time-critical / crashing context** → urgency set to HIGH.";
           "Detected **high-stakes intervention language** → risk level set to HIGH.";
           "No protocol language → protocol-independence set to HIGH.";
           "No obvious evidence/guideline cues → evidence-orientation set to LOW.";
           "No explicit educational framing → educational-frame set to LOW." ]
         true
  /\ raw_score (analyze_dimensions "tpa") = 8
  /\ compute_ai_usefulness (analyze_dimensions "tpa") = PyFloat 3.
Proof. repeat split; vm_compute; reflexivity. Qed.

(** C7. For every input string the analyzer returns exactly five rationale
    strings, one per dimension, in the fixed order time urgency, risk
    level, protocol independence, evidence orientation, educational frame;
    each is the rationale of the one tier that gave its dimension its
    score, and the fifteen tier rationales are pairwise distinct. *)
Theorem reasons_one_per_dimension (text : string) :
  let d := analyze_dimensions text in
  exists r1 r2 r3 r4 r5,
    reasons d = [r1; r2; r3; r4; r5]
    /\ In (time_urgency d, r1) time_urgency_tiers
    /\ In (risk_level d, r2) risk_level_tiers
    /\ In (protocol_independence d, r3) protocol_independence_tiers
    /\ In (evidence_orientation d, r4) evidence_orientation_tiers
    /\ In (educational_frame d, r5) educational_frame_tiers
    /\ NoDup all_rationales.
Proof.
  intros d. subst d.
  destruct (analyze_dimensions_run text)
    as (tu & r1 & rl & r2 & pi & r3 & eo & r4 & ef & r5
        & -> & H1 & H2 & H3 & H4 & H5 & _).
  exists r1, r2, r3, r4, r5. cbn [reasons time_urgency risk_level
    protocol_independence evidence_orientation educational_frame].
  repeat (split; [assumption || reflexivity|]).
  apply (NoDup_count_occ' string_dec). intros r Hin.
  unfold all_rationales in Hin. cbn [map app snd time_urgency_tiers
    risk_level_tiers protocol_independence_tiers evidence_orientation_tiers
    educational_frame_tiers] in Hin.
  repeat (destruct Hin as [<- | Hin]; [vm_compute; reflexivity|]).
  destruct Hin.
Qed.

(** C9. The evidence table holds overlapping phrases ("guideline" and
    "guidelines", "trial" and "trials"), so one plural word counts as two
    hits: for the input "guidelines" alone the hits are "guideline" and
    "guidelines" and evidence_orientation is 2, not 1. *)
Theorem plural_counts_twice :
  In "guideline" evidence_terms /\ In "guidelines" evidence_terms
  /\ In "trial" evidence_terms /\ In "trials" evidence_terms
  /\ Substring "guideline" "guidelines"
  /\ hits evidence_terms (lower "guidelines") = ["guideline"; "guidelines"]
  /\ evidence_orientation (analyze_dimensions "guidelines") = 2
  /\ hits evidence_terms (lower "trials") = ["trial"; "trials"]
  /\ evidence_orientation (analyze_dimensions "trials") = 2.
Proof.
  assert (Hin : forall term,
             existsb (String.eqb term) evidence_terms = true ->
             In term evidence_terms).
  { intros term H. apply existsb_exists in H. destruct H as [x [Hx H]].
    apply String.eqb_eq in H. now subst x. }
  repeat split; try (apply Hin); try (vm_compute; reflexivity).
  apply contains_Substring. vm_compute. reflexivity.
Qed.

(** C10. The hard-stop override only lowers the score: whenever
    [hard_stop] is true and the clamped weighted score is at most 3 the
    aggregator returns that clamped score unchanged; the returned value
    never exceeds the clamped score; and the result can be strictly below
    3.0: the input "dopamine policy" triggers a high-risk term and a
    protocol term and nothing else, [hard_stop] is true and the final
    score is 0. *)
Theorem hard_stop_only_lowers :
  (forall d : dim,
     hard_stop d = true -> clamped_score d <= 3 ->
     compute_ai_usefulness d = PyInt (clamped_score d))
  /\ (forall d : dim,
        (value (compute_ai_usefulness d) <= inject_Z (clamped_score d))%Q)
  /\ (exists text : string,
        analyze_dimensions text
        = mkDim 2 0 0 0 0
            [ "No strong urgency language → urgency set to LOW.";
              "Detected **high-stakes intervention language** → risk level set to HIGH.";
              "Detected **hospital-specific / protocol language** → protocol-independence set to LOW.";
              "No obvious evidence/guideline cues → evidence-orientation set to LOW.";
              "No explicit educational framing → educational-frame set to LOW." ]
            true
        /\ compute_ai_usefulness (analyze_dimensions text) = PyInt 0
        /\ (value (compute_ai_usefulness (analyze_dimensions text)) < 3)%Q).
Proof.
  split; [|split].
  - intros d Hs Hle. rewrite compute_ai_usefulness_eq, Hs. cbn [andb].
    apply Z.ltb_ge in Hle. now rewrite Hle.
  - exact compute_le_clamped.
  - exists "dopamine policy". repeat split; vm_compute; reflexivity.
Qed.

Lemma hard_stop_only_lowers_witness :
  hard_stop (mkDim 1 0 0 0 1 [] true) = true
  /\ clamped_score (mkDim 1 0 0 0 1 [] true) <= 3
  /\ compute_ai_usefulness (mkDim 1 0 0 0 1 [] true) = PyInt 3.
Proof.
  split; [reflexivity|].
  split; [vm_compute; discriminate|].
  apply (proj1 hard_stop_only_lowers (mkDim 1 0 0 0 1 [] true));
    [reflexivity | vm_compute; discriminate].
Defined.

(** * Further properties of the two functions and of the page *)

(** ** Lower-casing and substrings *)

Module LowerFacts.

Lemma lower_char_idem (c : ascii) : lower_char (lower_char c) = lower_char c.
Proof. destruct c as [[] [] [] [] [] [] [] []]; vm_compute; reflexivity. Qed.

Lemma lower_idem (s : string) : lower (lower s) = lower s.
Proof.
  induction s as [|c s IH]; simpl; [reflexivity|].
  now rewrite lower_char_idem, IH.
Qed.

Lemma lower_app (a b : string) : lower (a ++ b) = lower a ++ lower b.
Proof. induction a as [|c a IH]; simpl; [reflexivity | now rewrite IH]. Qed.

Lemma isspace_lower_char (c : ascii) :
  Page.isspace (lower_char c) = Page.isspace c.
Proof. destruct c as [[] [] [] [] [] [] [] []]; vm_compute; reflexivity. Qed.

Lemma string_app_assoc (a b c : string) : (a ++ b) ++ c = a ++ b ++ c.
Proof. induction a as [|x a IH]; simpl; [reflexivity | now rewrite IH]. Qed.

Lemma Substring_context (p t pre post : string) :
  Substring p t -> Substring p (pre ++ t ++ post).
Proof.
  intros [a [b ->]]. exists (pre ++ a), (b ++ post).
  now rewrite !string_app_assoc.
Qed.

Lemma Substring_trans (p q t : string) :
  Substring p q -> Substring q t -> Substring p t.
Proof.
  intros [a [b ->]] [c [d ->]]. apply Substring_context. now exists a, b.
Qed.

Lemma Substring_lower_context (p text pre post : string) :
  Substring p (lower text) -> Substring p (lower (pre ++ text ++ post)).
Proof. intros H. rewrite !lower_app. now apply Substring_context. Qed.

End LowerFacts.

Import LowerFacts.

(** A phrase found in a text is found in every text around it. *)
Lemma contains_context (p text pre post : string) :
  contains p (lower text) = true ->
  contains p (lower (pre ++ text ++ post)) = true.
Proof.
  rewrite !contains_Substring. apply Substring_lower_context.
Qed.

Lemma any_in_context (terms : list string) (text pre post : string) :
  any_in terms (lower text) = true ->
  any_in terms (lower (pre ++ text ++ post)) = true.
Proof.
  unfold any_in. rewrite !existsb_exists.
  intros [p [Hin H]]. exists p. split; [exact Hin|].
  now apply contains_context.
Qed.

Lemma hits_length_context (terms : list string) (text pre post : string) :
  (List.length (hits terms (lower text))
   <= List.length (hits terms (lower (pre ++ text ++ post))))%nat.
Proof.
  unfold hits. induction terms as [|p terms IH]; simpl; [lia|].
  destruct (contains p (lower text)) eqn:Hp.
  - rewrite (contains_context _ _ pre post Hp). simpl. lia.
  - destruct (contains p (lower (pre ++ text ++ post))); simpl; lia.
Qed.

(** ** The analysis reads the text only through the table phrases *)

Lemma any_in_agree (terms : list string) (t1 t2 : string) :
  (forall p, In p terms -> contains p t1 = contains p t2) ->
  any_in terms t1 = any_in terms t2.
Proof.
  intros H. unfold any_in. induction terms as [|p terms IH]; simpl.
  - reflexivity.
  - rewrite (H p (or_introl eq_refl)), IH; [reflexivity|].
    intros q Hq. apply H. now right.
Qed.

Lemma sum_in_agree (terms : list string) (t1 t2 : string) :
  (forall p, In p terms -> contains p t1 = contains p t2) ->
  sum_in terms t1 = sum_in terms t2.
Proof.
  intros H. rewrite !sum_in_hits. f_equal. f_equal. unfold hits.
  induction terms as [|p terms IH]; simpl.
  - reflexivity.
  - rewrite (H p (or_introl eq_refl)), IH; [reflexivity|].
    intros q Hq. apply H. now right.
Qed.

Lemma analyze_dimensions_agree (a b : string) :
  (forall p, In p all_terms -> contains p (lower a) = contains p (lower b)) ->
  analyze_dimensions a = analyze_dimensions b.
Proof.
  intros H.
  assert (Hany : forall terms, incl terms all_terms ->
            any_in terms (lower a) = any_in terms (lower b)).
  { intros terms Hi. apply any_in_agree. intros p Hp. now apply H, Hi. }
  assert (Hsum : sum_in evidence_terms (lower a)
                 = sum_in evidence_terms (lower b)).
  { apply sum_in_agree. intros p Hp. apply H. unfold all_terms.
    rewrite !in_app_iff. tauto. }
  unfold analyze_dimensions, analyze_dimensions_body,
    time_urgency_block, risk_level_block, protocol_independence_block,
    evidence_orientation_block, educational_frame_block.
  rewrite Hsum.
  rewrite (Hany time_critical_terms), (Hany medium_urgency_terms),
    (Hany high_risk_terms), (Hany low_risk_terms), (Hany protocol_terms),
    (Hany mixed_terms), (Hany evidence_terms), (Hany teaching_terms),
    (Hany mild_edu_terms);
    try reflexivity;
    intros p Hp; unfold all_terms; rewrite !in_app_iff; tauto.
Qed.

(** ** The scores in closed form *)

Lemma time_urgency_block_value (t : string) (s : locals) :
  fst (time_urgency_block t s)
  = if any_in time_critical_terms t then 0
    else if any_in medium_urgency_terms t then 1 else 2.
Proof.
  unfold time_urgency_block.
  destruct (any_in time_critical_terms t);
    [|destruct (any_in medium_urgency_terms t)]; reflexivity.
Qed.

Lemma risk_level_block_value (t : string) (s : locals) :
  fst (risk_level_block t s)
  = if any_in high_risk_terms t then 0
    else if any_in low_risk_terms t then 2 else 1.
Proof.
  unfold risk_level_block.
  destruct (any_in high_risk_terms t);
    [|destruct (any_in low_risk_terms t)]; reflexivity.
Qed.

Lemma protocol_independence_block_value (t : string) (s : locals) :
  fst (protocol_independence_block t s)
  = if any_in protocol_terms t then 0
    else if any_in mixed_terms t then 1 else 2.
Proof.
  unfold protocol_independence_block.
  destruct (any_in protocol_terms t);
    [|destruct (any_in mixed_terms t)]; reflexivity.
Qed.

Lemma educational_frame_block_value (t : string) (s : locals) :
  fst (educational_frame_block t s)
  = if any_in teaching_terms t then 2
    else if any_in mild_edu_terms t then 1 else 0.
Proof.
  unfold educational_frame_block.
  destruct (any_in teaching_terms t);
    [|destruct (any_in mild_edu_terms t)]; reflexivity.
Qed.

(** The record a call returns, block by block. *)
Lemma analyze_dimensions_blocks (text : string) :
  exists s1 s2 s3 s4 s5 : locals,
    analyze_dimensions text
    = mkDim (fst (time_urgency_block (lower text) s1))
        (fst (risk_level_block (lower text) s2))
        (fst (protocol_independence_block (lower text) s3))
        (fst (evidence_orientation_block (lower text) s4))
        (fst (educational_frame_block (lower text) s5))
        (reasons (analyze_dimensions text))
        (hard_stop (analyze_dimensions text)).
Proof.
  unfold analyze_dimensions at 1, analyze_dimensions_body, new_frame.
  unfold bind at 1 2. unfold reasons_new, hard_stop_assign.
  cbn [l_reasons l_hard_stop].
  set (t := lower text).
  unfold analyze_dimensions, analyze_dimensions_body, new_frame.
  fold t.
  unfold bind, reasons_new, hard_stop_assign, get_reasons, get_hard_stop, ret.
  cbn [l_reasons l_hard_stop].
  exists (mkLocals [] false).
  destruct (time_urgency_block t (mkLocals [] false)) as [v1 s1].
  exists s1. destruct (risk_level_block t s1) as [v2 s2].
  exists s2. destruct (protocol_independence_block t s2) as [v3 s3].
  exists s3. destruct (evidence_orientation_block t s3) as [v4 s4].
  exists s4. destruct (educational_frame_block t s4) as [v5 s5].
  reflexivity.
Qed.

Lemma analyze_dimensions_scores (text : string) :
  time_urgency (analyze_dimensions text)
  = (if any_in time_critical_terms (lower text) then 0
     else if any_in medium_urgency_terms (lower text) then 1 else 2)
  /\ risk_level (analyze_dimensions text)
     = (if any_in high_risk_terms (lower text) then 0
        else if any_in low_risk_terms (lower text) then 2 else 1)
  /\ protocol_independence (analyze_dimensions text)
     = (if any_in protocol_terms (lower text) then 0
        else if any_in mixed_terms (lower text) then 1 else 2)
  /\ evidence_orientation (analyze_dimensions text)
     = evidence_tier (List.length (hits evidence_terms (lower text)))
  /\ educational_frame (analyze_dimensions text)
     = (if any_in teaching_terms (lower text) then 2
        else if any_in mild_edu_terms (lower text) then 1 else 0)
  /\ hard_stop (analyze_dimensions text)
     = any_in time_critical_terms (lower text)
       || any_in high_risk_terms (lower text).
Proof.
  destruct (analyze_dimensions_blocks text)
    as (s1 & s2 & s3 & s4 & s5 & Heq).
  rewrite Heq at 1 2 3 4 5.
  cbn [time_urgency risk_level protocol_independence evidence_orientation
       educational_frame].
  rewrite time_urgency_block_value, risk_level_block_value,
    protocol_independence_block_value, evidence_orientation_block_value,
    educational_frame_block_value.
  repeat (split; [reflexivity|]).
  destruct (analyze_dimensions_run text)
    as (tu & r1 & rl & r2 & pi & r3 & eo & r4 & ef & r5 & -> & _).
  reflexivity.
Qed.

(** ** Properties of the analysis *)

(** X1. For every text each of the five scores the analysis returns lies in
    0..2, so the weighted sum the aggregator forms from an analysis lies in
    0..18. *)
Theorem analysis_scores_in_range (text : string) :
  scores_in_range (analyze_dimensions text)
  /\ 0 <= raw_score (analyze_dimensions text) <= 18.
Proof.
  pose proof (analyze_dimensions_in_range text) as H.
  split; [exact H|].
  unfold scores_in_range in H. unfold raw_score. lia.
Qed.

(** X2. The flag and the scores agree: [hard_stop] is set exactly when the
    time-urgency score or the risk-level score is 0. *)
Theorem hard_stop_iff_zero_score (text : string) :
  hard_stop (analyze_dimensions text) = true <->
  time_urgency (analyze_dimensions text) = 0
  \/ risk_level (analyze_dimensions text) = 0.
Proof.
  destruct (analyze_dimensions_scores text)
    as (-> & -> & _ & _ & _ & ->).
  destruct (any_in time_critical_terms (lower text)),
    (any_in medium_urgency_terms (lower text)),
    (any_in high_risk_terms (lower text)),
    (any_in low_risk_terms (lower text));
    cbn; split; intros H; try tauto; try discriminate;
    destruct H; discriminate.
Qed.

(** X3. The analysis does not see letter case: lower-casing the text
    first gives the same scores, rationales and flag. *)
Theorem analyze_dimensions_ignores_case (text : string) :
  analyze_dimensions (lower text) = analyze_dimensions text.
Proof.
  apply analyze_dimensions_agree. intros p _. now rewrite lower_idem.
Qed.

(** X4. A hard stop survives added context: if a text sets [hard_stop],
    so does every text that contains it, and the score of the longer text
    is still at most 3. *)
Theorem hard_stop_survives_context (text pre post : string) :
  hard_stop (analyze_dimensions text) = true ->
  hard_stop (analyze_dimensions (pre ++ text ++ post)) = true
  /\ (value (compute_ai_usefulness
               (analyze_dimensions (pre ++ text ++ post))) <= 3)%Q.
Proof.
  intros H.
  assert (H' : hard_stop (analyze_dimensions (pre ++ text ++ post)) = true).
  { destruct (analyze_dimensions_scores text) as (_ & _ & _ & _ & _ & Hs).
    destruct (analyze_dimensions_scores (pre ++ text ++ post))
      as (_ & _ & _ & _ & _ & ->).
    rewrite Hs in H. apply orb_true_iff in H. apply orb_true_iff.
    destruct H as [H | H]; [left | right]; now apply any_in_context. }
  split; [exact H' | now apply hard_stop_caps].
Qed.

Lemma hard_stop_survives_context_witness :
  hard_stop (analyze_dimensions "tPA") = true
  /\ hard_stop
       (analyze_dimensions
          ("For teaching: explain the evidence on " ++ "tPA"
           ++ " from the trials and guidelines")) = true.
Proof.
  assert (H : hard_stop (analyze_dimensions "tPA") = true)
    by (vm_compute; reflexivity).
  split; [exact H|].
  exact (proj1 (hard_stop_survives_context "tPA"
                  "For teaching: explain the evidence on "
                  " from the trials and guidelines" H)).
Defined.

Lemma evidence_tier_mono (n m : nat) :
  (n <= m)%nat -> evidence_tier n <= evidence_tier m.
Proof.
  intros H. destruct n as [|[|n]], m as [|[|m]]; simpl; lia.
Qed.

(** X5. Context moves four scores one way only: for a text and any text
    that contains it, the longer text has time urgency and protocol
    independence no higher, evidence orientation and educational frame no
    lower; and a risk level of 0 stays 0. *)
Theorem scores_monotone_in_context (text pre post : string) :
  let d := analyze_dimensions text in
  let d' := analyze_dimensions (pre ++ text ++ post) in
  time_urgency d' <= time_urgency d
  /\ protocol_independence d' <= protocol_independence d
  /\ evidence_orientation d <= evidence_orientation d'
  /\ educational_frame d <= educational_frame d'
  /\ (risk_level d <> 0 \/ risk_level d' = 0).
Proof.
  intros d d'. subst d d'.
  destruct (analyze_dimensions_scores text)
    as (-> & -> & -> & -> & -> & _).
  destruct (analyze_dimensions_scores (pre ++ text ++ post))
    as (-> & -> & -> & -> & -> & _).
  pose proof (any_in_context time_critical_terms text pre post) as H1.
  pose proof (any_in_context medium_urgency_terms text pre post) as H2.
  pose proof (any_in_context high_risk_terms text pre post) as H3.
  pose proof (any_in_context protocol_terms text pre post) as H4.
  pose proof (any_in_context mixed_terms text pre post) as H5.
  pose proof (any_in_context teaching_terms text pre post) as H6.
  pose proof (any_in_context mild_edu_terms text pre post) as H7.
  pose proof (hits_length_context evidence_terms text pre post) as H8.
  apply evidence_tier_mono in H8.
  repeat split; try exact H8.
  - destruct (any_in time_critical_terms (lower text));
      [rewrite H1 by reflexivity; lia|].
    destruct (any_in medium_urgency_terms (lower text));
      [rewrite H2 by reflexivity|];
      destruct (any_in time_critical_terms (lower (pre ++ text ++ post)));
      try destruct (any_in medium_urgency_terms (lower (pre ++ text ++ post)));
      lia.
  - destruct (any_in protocol_terms (lower text));
      [rewrite H4 by reflexivity; lia|].
    destruct (any_in mixed_terms (lower text));
      [rewrite H5 by reflexivity|];
      destruct (any_in protocol_terms (lower (pre ++ text ++ post)));
      try destruct (any_in mixed_terms (lower (pre ++ text ++ post)));
      lia.
  - destruct (any_in teaching_terms (lower text));
      [rewrite H6 by reflexivity; lia|].
    destruct (any_in mild_edu_terms (lower text));
      [rewrite H7 by reflexivity|];
      destruct (any_in teaching_terms (lower (pre ++ text ++ post)));
      try destruct (any_in mild_edu_terms (lower (pre ++ text ++ post)));
      lia.
  - destruct (any_in high_risk_terms (lower text));
      [rewrite H3 by reflexivity; now right|].
    left. destruct (any_in low_risk_terms (lower text)); discriminate.
Qed.

(** ** Properties of the score *)

(** X6. A time-critical phrase always ends at exactly 3.0: urgency adds 4
    to the weighted sum, so the clamped sum exceeds 3 and the cap
    applies. *)
Theorem time_critical_scores_exactly_3 (text term : string) :
  In term time_critical_terms ->
  Substring term (lower text) ->
  time_urgency (analyze_dimensions text) = 0
  /\ hard_stop (analyze_dimensions text) = true
  /\ compute_ai_usefulness (analyze_dimensions text) = PyFloat 3.
Proof.
  intros Hin Hsub.
  assert (Hc : any_in time_critical_terms (lower text) = true).
  { apply any_in_Substring. now exists term. }
  pose proof (analyze_dimensions_in_range text) as Hr.
  destruct (analyze_dimensions_scores text) as (Htu & _ & _ & _ & _ & Hs).
  rewrite Hc in Htu, Hs. cbn [orb] in Hs.
  split; [exact Htu|]. split; [exact Hs|].
  rewrite compute_ai_usefulness_eq, Hs. cbn [andb].
  replace (3 <? clamped_score (analyze_dimensions text)) with true;
    [reflexivity|].
  symmetry. apply Z.ltb_lt. unfold clamped_score, raw_score.
  unfold scores_in_range in Hr. rewrite Htu. lia.
Qed.

Lemma time_critical_scores_exactly_3_witness :
  In "stat" time_critical_terms
  /\ Substring "stat" (lower "Explain the patient's volume status")
  /\ compute_ai_usefulness
       (analyze_dimensions "Explain the patient's volume status")
     = PyFloat 3.
Proof.
  assert (Hin : In "stat" time_critical_terms).
  { unfold time_critical_terms. do 10 right. left. reflexivity. }
  assert (Hsub : Substring "stat"
                   (lower "Explain the patient's volume status")).
  { apply contains_Substring. vm_compute. reflexivity. }
  split; [exact Hin|]. split; [exact Hsub|].
  exact (proj2 (proj2 (time_critical_scores_exactly_3 _ _ Hin Hsub))).
Defined.

(** X7. Without a hard stop the score is the clamped weighted sum, an
    integer from 2 to 10: a score of 0 or 1 is only reached through a
    hard stop. *)
Theorem no_hard_stop_score_at_least_2 (text : string) :
  hard_stop (analyze_dimensions text) = false ->
  compute_ai_usefulness (analyze_dimensions text)
  = PyInt (clamped_score (analyze_dimensions text))
  /\ 2 <= clamped_score (analyze_dimensions text) <= 10.
Proof.
  intros Hs.
  pose proof (analyze_dimensions_in_range text) as Hr.
  destruct (analyze_dimensions_scores text) as (Htu & Hrl & _ & _ & _ & Hs').
  rewrite Hs in Hs'. symmetry in Hs'. apply orb_false_iff in Hs'.
  destruct Hs' as [Hc Hh]. rewrite Hc in Htu. rewrite Hh in Hrl.
  split.
  - rewrite compute_ai_usefulness_eq, Hs. reflexivity.
  - unfold clamped_score, raw_score. unfold scores_in_range in Hr.
    destruct (any_in medium_urgency_terms (lower text)),
      (any_in low_risk_terms (lower text)); rewrite Htu, Hrl; lia.
Qed.

Lemma no_hard_stop_score_at_least_2_witness :
  hard_stop (analyze_dimensions "Our hospital policy on discharge") = false
  /\ compute_ai_usefulness
       (analyze_dimensions "Our hospital policy on discharge") = PyInt 2.
Proof.
  assert (H : hard_stop
                (analyze_dimensions "Our hospital policy on discharge")
              = false) by (vm_compute; reflexivity).
  split; [exact H|].
  exact (proj1 (no_hard_stop_score_at_least_2 _ H)).
Defined.

(** X8. The aggregate is monotone: with the same [hard_stop], a record
    whose time-urgency score is no higher (more urgent) and whose other
    four scores are no lower never gets a lower result.  In particular a
    more urgent question never scores lower. *)
Theorem compute_ai_usefulness_monotone (d1 d2 : dim) :
  hard_stop d1 = hard_stop d2 ->
  time_urgency d2 <= time_urgency d1 ->
  risk_level d1 <= risk_level d2 ->
  protocol_independence d1 <= protocol_independence d2 ->
  evidence_orientation d1 <= evidence_orientation d2 ->
  educational_frame d1 <= educational_frame d2 ->
  (value (compute_ai_usefulness d1) <= value (compute_ai_usefulness d2))%Q.
Proof.
  intros Hs Htu Hrl Hpi Heo Hef.
  assert (Hc : clamped_score d1 <= clamped_score d2).
  { unfold clamped_score, raw_score. lia. }
  rewrite !compute_ai_usefulness_eq, <- Hs.
  destruct (hard_stop d1); cbn [andb].
  - destruct (3 <? clamped_score d1) eqn:H1,
      (3 <? clamped_score d2) eqn:H2; cbn [value];
      try apply Z.ltb_lt in H1; try apply Z.ltb_ge in H1;
      try apply Z.ltb_lt in H2; try apply Z.ltb_ge in H2;
      try change 3%Q with (inject_Z 3); rewrite <- ?Zle_Qle;
      try lia; apply Qle_refl.
  - cbn [value]. rewrite <- Zle_Qle. exact Hc.
Qed.

Lemma compute_ai_usefulness_monotone_witness :
  compute_ai_usefulness (mkDim 2 1 2 0 0 [] false) = PyInt 6
  /\ compute_ai_usefulness (mkDim 1 1 2 0 0 [] false) = PyInt 8
  /\ (value (compute_ai_usefulness (mkDim 2 1 2 0 0 [] false))
      <= value (compute_ai_usefulness (mkDim 1 1 2 0 0 [] false)))%Q.
Proof.
  split; [reflexivity|]. split; [reflexivity|].
  apply (compute_ai_usefulness_monotone
           (mkDim 2 1 2 0 0 [] false) (mkDim 1 1 2 0 0 [] false));
    cbn; try reflexivity; lia.
Defined.

(** X9. The clamp bounds the result for any integers, not only scores in
    0..2: whatever the record holds, the result is a whole number from 0
    to 10, and it is the float 3.0 only when [hard_stop] is set. *)
Theorem compute_ai_usefulness_bounded (d : dim) :
  exists z : Z,
    0 <= z <= 10
    /\ (value (compute_ai_usefulness d) == inject_Z z)%Q
    /\ (compute_ai_usefulness d = PyInt z
        \/ compute_ai_usefulness d = PyFloat 3
           /\ z = 3 /\ hard_stop d = true).
Proof.
  rewrite compute_ai_usefulness_eq.
  pose proof (clamped_score_bounds d) as Hb.
  destruct (hard_stop d); cbn [andb].
  - destruct (3 <? clamped_score d).
    + exists 3. split; [lia|]. split; [reflexivity|]. right. tauto.
    + exists (clamped_score d). split; [lia|]. split; [reflexivity|].
      now left.
  - exists (clamped_score d). split; [lia|]. split; [reflexivity|]. now left.
Qed.

(** ** Overlaps inside and between the tables *)

Lemma contains_super (q p t : string) :
  contains q p = true -> Substring p t -> contains q t = true.
Proof.
  rewrite !contains_Substring. apply Substring_trans.
Qed.

(** What a phrase triggers, every text containing it triggers. *)
Lemma any_in_super (terms : list string) (p t : string) :
  any_in terms p = true -> Substring p t -> any_in terms t = true.
Proof.
  unfold any_in. rewrite !existsb_exists.
  intros [q [Hin Hq]] Hsub. exists q. split; [exact Hin|].
  now apply (contains_super q p).
Qed.

Lemma hits_length_super (terms : list string) (p t : string) :
  Substring p t ->
  (List.length (hits terms p) <= List.length (hits terms t))%nat.
Proof.
  intros Hsub. unfold hits.
  induction terms as [|q terms IH]; simpl; [lia|].
  destruct (contains q p) eqn:Hq.
  - rewrite (contains_super q p t Hq Hsub). simpl. lia.
  - destruct (contains q t); simpl; lia.
Qed.

(** X10. Three evidence phrases contain another evidence phrase, so they
    are counted twice: every text that mentions "trials", "guidelines" or
    "chest guideline" gets evidence orientation 2, whatever else it
    says. *)
Theorem nested_evidence_phrase_scores_2 (text p : string) :
  In p ["trials"; "guidelines"; "chest guideline"] ->
  Substring p (lower text) ->
  In p evidence_terms
  /\ evidence_orientation (analyze_dimensions text) = 2.
Proof.
  intros Hin Hsub.
  destruct (analyze_dimensions_scores text) as (_ & _ & _ & -> & _).
  pose proof (hits_length_super evidence_terms p (lower text) Hsub) as Hlen.
  assert (Hp : In p evidence_terms
               /\ (2 <= List.length (hits evidence_terms p))%nat).
  { destruct Hin as [<- | [<- | [<- | []]]];
      (split; [unfold evidence_terms; simpl; tauto | vm_compute; lia]). }
  destruct Hp as [Hp H2]. split; [exact Hp|].
  destruct (List.length (hits evidence_terms (lower text))) as [|[|n]];
    [lia | lia | reflexivity].
Qed.

Lemma nested_evidence_phrase_scores_2_witness :
  In "trials" ["trials"; "guidelines"; "chest guideline"]
  /\ Substring "trials" (lower "Summarise the TRIALS")
  /\ evidence_orientation (analyze_dimensions "Summarise the TRIALS") = 2.
Proof.
  assert (Hin : In "trials" ["trials"; "guidelines"; "chest guideline"])
    by (left; reflexivity).
  assert (Hsub : Substring "trials" (lower "Summarise the TRIALS")).
  { apply contains_Substring. vm_compute. reflexivity. }
  split; [exact Hin|]. split; [exact Hsub|].
  exact (proj2 (nested_evidence_phrase_scores_2 _ _ Hin Hsub)).
Defined.

Lemma any_in_remove_subsumed (terms : list string) (q p t : string) :
  In q terms -> q <> p -> contains q p = true ->
  any_in terms t = any_in (remove string_dec p terms) t.
Proof.
  intros Hq Hne Hqp. apply eq_iff_eq_true.
  unfold any_in. rewrite !existsb_exists. split.
  - intros [x [Hx Hc]]. destruct (string_dec x p) as [-> | Hxp].
    + exists q. split; [now apply in_in_remove|].
      apply (contains_super q p); [exact Hqp|].
      now apply contains_Substring.
    + exists x. split; [now apply in_in_remove | exact Hc].
  - intros [x [Hx Hc]]. exists x. split; [|exact Hc].
    now apply in_remove in Hx.
Qed.

(** X11. Four table entries never decide anything: "massive hemorrhage"
    (it contains "massive hemor"), "norepinephrine" (it contains
    "epinephrine"), "chemotherapy" (it contains "chemo") and "for teaching
    purposes" (it contains "for teaching").  On every text each table's
    test gives the same answer with these entries removed. *)
Theorem subsumed_phrases_never_decide (t : string) :
  any_in time_critical_terms t
  = any_in (remove string_dec "massive hemorrhage" time_critical_terms) t
  /\ any_in high_risk_terms t
     = any_in (remove string_dec "chemotherapy"
                 (remove string_dec "norepinephrine" high_risk_terms)) t
  /\ any_in low_risk_terms t
     = any_in (remove string_dec "for teaching purposes" low_risk_terms) t.
Proof.
  split; [|split].
  - apply (any_in_remove_subsumed _ "massive hemor");
      [ unfold time_critical_terms; simpl; tauto
      | discriminate | vm_compute; reflexivity ].
  - rewrite (any_in_remove_subsumed high_risk_terms
               "epinephrine" "norepinephrine" t);
      [ | unfold high_risk_terms; simpl; tauto
        | discriminate | vm_compute; reflexivity ].
    apply (any_in_remove_subsumed _ "chemo");
      [ vm_compute; tauto | discriminate | vm_compute; reflexivity ].
  - apply (any_in_remove_subsumed _ "for teaching");
      [ unfold low_risk_terms; simpl; tauto
      | discriminate | vm_compute; reflexivity ].
Qed.

(** X12. The teaching table and the low-risk table overlap: nine teaching
    phrases contain a low-risk phrase.  A text with one of them gets
    educational frame 2 and, unless a high-stakes phrase is present, risk
    level 2 as well; its risk level is never the default 1. *)
Theorem teaching_phrase_counts_twice (text p : string) :
  In p [ "explain to a patient"; "explain to patient"; "how to explain";
         "how to counsel"; "counseling"; "for teaching"; "for education";
         "board prep"; "for studying" ] ->
  Substring p (lower text) ->
  In p teaching_terms
  /\ educational_frame (analyze_dimensions text) = 2
  /\ risk_level (analyze_dimensions text)
     = (if any_in high_risk_terms (lower text) then 0 else 2).
Proof.
  intros Hin Hsub.
  assert (Hp : In p teaching_terms /\ any_in low_risk_terms p = true).
  { repeat (destruct Hin as [<- | Hin];
            [split; [unfold teaching_terms; simpl; tauto
                    | vm_compute; reflexivity]|]).
    destruct Hin. }
  destruct Hp as [Hp Hlow]. split; [exact Hp|].
  assert (Ht : any_in teaching_terms (lower text) = true).
  { apply any_in_Substring. now exists p. }
  pose proof (any_in_super _ _ _ Hlow Hsub) as Hl.
  destruct (analyze_dimensions_scores text) as (_ & -> & _ & _ & -> & _).
  rewrite Ht, Hl. split; reflexivity.
Qed.

Lemma teaching_phrase_counts_twice_witness :
  Substring "board prep" (lower "Board prep question on hyponatremia")
  /\ educational_frame
       (analyze_dimensions "Board prep question on hyponatremia") = 2
  /\ risk_level
       (analyze_dimensions "Board prep question on hyponatremia") = 2.
Proof.
  assert (Hin : In "board prep"
                  [ "explain to a patient"; "explain to patient";
                    "how to explain"; "how to counsel"; "counseling";
                    "for teaching"; "for education"; "board prep";
                    "for studying" ]) by (do 7 right; left; reflexivity).
  assert (Hsub : Substring "board prep"
                   (lower "Board prep question on hyponatremia")).
  { apply contains_Substring. vm_compute. reflexivity. }
  split; [exact Hsub|].
  destruct (teaching_phrase_counts_twice _ _ Hin Hsub) as (_ & He & Hr).
  split; [exact He|]. rewrite Hr. vm_compute. reflexivity.
Defined.

(** ** Stripping whitespace *)

Module StripFacts.

Import Page.

Lemma blank_lstrip (s : string) : blank (lstrip s) = blank s.
Proof.
  induction s as [|c s IH]; simpl; [reflexivity|].
  destruct (isspace c) eqn:Hc; simpl; [exact IH | now rewrite Hc].
Qed.

Lemma rstrip_cons (c : ascii) (s : string) :
  rstrip s <> "" -> rstrip (String c s) = String c (rstrip s).
Proof. simpl. destruct (rstrip s); [congruence | reflexivity]. Qed.

Lemma rstrip_empty (s : string) : rstrip s = "" <-> blank s = true.
Proof.
  induction s as [|c s IH]; simpl; [tauto|].
  destruct (rstrip s) as [|c' r].
  - assert (Hb : blank s = true) by now apply IH.
    rewrite Hb, andb_true_r. destruct (isspace c); split; congruence.
  - assert (Hb : blank s = false).
    { destruct (blank s); [|reflexivity].
      assert (H : String c' r = "") by now apply IH. discriminate. }
    rewrite Hb, andb_false_r. split; discriminate.
Qed.

Lemma blank_rstrip (s : string) : blank (rstrip s) = blank s.
Proof.
  induction s as [|c s IH]; [reflexivity|].
  destruct (rstrip s) as [|c' r] eqn:Hr.
  - assert (Hb : blank s = true) by now apply rstrip_empty.
    simpl. rewrite Hr, Hb, andb_true_r.
    destruct (isspace c) eqn:Hc; simpl; [reflexivity | now rewrite Hc].
  - rewrite rstrip_cons by (rewrite Hr; discriminate).
    cbn [blank]. rewrite <- IH, Hr. reflexivity.
Qed.

Lemma blank_strip (s : string) : blank (strip s) = blank s.
Proof. unfold strip. now rewrite blank_rstrip, blank_lstrip. Qed.

Lemma truthy_strip (s : string) : truthy (strip s) = negb (blank s).
Proof.
  rewrite <- blank_strip.
  destruct (strip s) as [|c r] eqn:Hs.
  - reflexivity.
  - cbn [truthy]. destruct (blank (String c r)) eqn:Hb; [|reflexivity].
    rewrite <- Hs in Hb. unfold strip in Hb, Hs.
    rewrite blank_rstrip in Hb.
    apply rstrip_empty in Hb. congruence.
Qed.

Lemma lower_lstrip (s : string) : lower (lstrip s) = lstrip (lower s).
Proof.
  induction s as [|c s IH]; simpl; [reflexivity|].
  rewrite isspace_lower_char. destruct (isspace c); [exact IH | reflexivity].
Qed.

Lemma lower_rstrip (s : string) : lower (rstrip s) = rstrip (lower s).
Proof.
  induction s as [|c s IH]; simpl; [reflexivity|].
  rewrite <- IH, isspace_lower_char.
  destruct (rstrip s); simpl; [destruct (isspace c)|]; reflexivity.
Qed.

Lemma lower_strip (s : string) : lower (strip s) = strip (lower s).
Proof. unfold strip. now rewrite lower_rstrip, lower_lstrip. Qed.

(** A phrase that starts with a solid character is found in a text
    exactly when it is found after the leading whitespace. *)
Lemma contains_lstrip (p t : string) :
  solid p = true -> contains p (lstrip t) = contains p t.
Proof.
  intros Hp. destruct p as [|a p]; [discriminate|].
  simpl in Hp. apply andb_true_iff in Hp. destruct Hp as [Ha _].
  induction t as [|c t IH]; [reflexivity|].
  cbn [lstrip]. destruct (isspace c) eqn:Hc; [|reflexivity].
  rewrite IH. cbn [contains prefix].
  destruct (ascii_dec a c) as [-> | _]; [|reflexivity].
  rewrite Hc in Ha. discriminate.
Qed.

Lemma rstrip_suffix (t : string) : exists ws, t = rstrip t ++ ws.
Proof.
  induction t as [|c t [ws IH]]; [now exists ""|].
  destruct (rstrip t) as [|c' r] eqn:Hr.
  - simpl. rewrite Hr. destruct (isspace c).
    + now exists (String c t).
    + exists t. reflexivity.
  - rewrite rstrip_cons by (rewrite Hr; discriminate).
    exists ws. simpl. rewrite Hr. now rewrite <- IH.
Qed.

Lemma rstrip_app_solid (p post : string) :
  ends_solid p = true ->
  rstrip (p ++ post) = p ++ rstrip post /\ rstrip (p ++ post) <> "".
Proof.
  induction p as [|a p IH]; [discriminate|].
  destruct p as [|b p].
  - intros Ha. cbn [ends_solid] in Ha. apply negb_true_iff in Ha.
    simpl. rewrite Ha. destruct (rstrip post); split; congruence.
  - intros Hp. change (ends_solid (String b p) = true) in Hp.
    destruct (IH Hp) as [Heq Hne].
    change (String a (String b p) ++ post)
      with (String a (String b p ++ post)).
    rewrite rstrip_cons by exact Hne. rewrite Heq.
    split; [reflexivity | discriminate].
Qed.

Lemma rstrip_app_nonempty (pre x : string) :
  rstrip x <> "" -> rstrip (pre ++ x) = pre ++ rstrip x.
Proof.
  intros Hx. induction pre as [|c pre IH]; [reflexivity|].
  simpl. rewrite IH. destruct (pre ++ rstrip x) eqn:He; [|reflexivity].
  destruct pre; simpl in He; [contradiction | discriminate].
Qed.

Lemma contains_rstrip (p t : string) :
  solid p = true -> contains p (rstrip t) = contains p t.
Proof.
  intros Hp.
  assert (He : ends_solid p = true).
  { destruct p; [discriminate|]. simpl in Hp.
    now apply andb_true_iff in Hp. }
  apply eq_iff_eq_true. rewrite !contains_Substring. split.
  - intros [a [b H]]. destruct (rstrip_suffix t) as [ws Ht].
    exists a, (b ++ ws). rewrite Ht, H. now rewrite !string_app_assoc.
  - intros [a [b ->]].
    destruct (rstrip_app_solid p b He) as [Heq Hne].
    rewrite rstrip_app_nonempty by exact Hne. rewrite Heq.
    now exists a, (rstrip b).
Qed.

Lemma contains_strip (p t : string) :
  solid p = true -> contains p (strip t) = contains p t.
Proof.
  intros Hp. unfold strip.
  now rewrite contains_rstrip, contains_lstrip.
Qed.

Lemma all_terms_solid (p : string) : In p all_terms -> solid p = true.
Proof.
  assert (H : forallb solid all_terms = true) by (vm_compute; reflexivity).
  rewrite forallb_forall in H. apply H.
Qed.

End StripFacts.

Import StripFacts.

(** ** The results section *)

(** The score the aggregator returns is always shown as a whole number
    followed by ".0"; formatting it never fails. *)
Lemma format_1f_score (d : dim) :
  exists k : Z,
    0 <= k <= 10
    /\ (value (compute_ai_usefulness d) == inject_Z k)%Q
    /\ Page.format_1f (compute_ai_usefulness d)
       = Some (Page.decimal k ++ ".0").
Proof.
  rewrite compute_ai_usefulness_eq.
  pose proof (clamped_score_bounds d) as Hb.
  destruct (hard_stop d && (3 <? clamped_score d)).
  - exists 3. split; [lia|]. split; [reflexivity | vm_compute; reflexivity].
  - exists (clamped_score d). split; [exact Hb|]. split; [reflexivity|].
    assert (H : In (clamped_score d) [0; 1; 2; 3; 4; 5; 6; 7; 8; 9; 10]).
    { simpl. lia. }
    generalize dependent (clamped_score d). intros c _ H.
    repeat (destruct H as [<- | H]; [vm_compute; reflexivity|]).
    destruct H.
Qed.

Lemma blank_app (a b : string) : blank (a ++ b) = blank a && blank b.
Proof.
  induction a as [|c a IH]; simpl; [reflexivity|].
  now rewrite IH, andb_assoc.
Qed.

Lemma blank_lower (s : string) : blank (lower s) = blank s.
Proof.
  induction s as [|c s IH]; simpl; [reflexivity|].
  now rewrite isspace_lower_char, IH.
Qed.

(** A text in which a table phrase occurs is not blank. *)
Lemma any_in_not_blank (terms : list string) (text : string) :
  incl terms all_terms ->
  any_in terms (lower text) = true -> blank text = false.
Proof.
  intros Hi H. apply any_in_Substring in H.
  destruct H as [p [Hp [a [b Heq]]]].
  pose proof (all_terms_solid p (Hi p Hp)) as Hs.
  rewrite <- blank_lower, Heq, !blank_app.
  destruct p as [|c p]; [discriminate|].
  simpl in Hs. apply andb_true_iff in Hs. destruct Hs as [Hc _].
  apply negb_true_iff in Hc. cbn [blank]. rewrite Hc.
  now rewrite andb_false_r.
Qed.

(** X13. The results section renders nothing exactly when the button was
    not clicked or the question is blank (empty or whitespace only); it
    never raises. *)
Theorem results_section_empty_iff (clicked : bool) (question : string) :
  (exists ws, Page.results_section clicked question = Some ws)
  /\ (Page.results_section clicked question = Some [] <->
      clicked = false \/ blank question = true).
Proof.
  unfold Page.results_section. rewrite truthy_strip.
  destruct (format_1f_score (analyze_dimensions question))
    as (k & _ & _ & ->).
  destruct (Page.band _) as [[label color] summary].
  destruct clicked, (blank question); cbn [andb negb];
    (split; [eexists; reflexivity|]);
    split; intros H; try tauto; try discriminate;
    destruct H; discriminate.
Qed.

(** The score in the shape the page reads it: a whole number [k] in
    0..10 that formats as "k.0" and that the two band tests compare as
    [k <= 3] and [k <= 7]. *)
Lemma score_on_page (d : dim) :
  exists k : Z,
    0 <= k <= 10
    /\ (value (compute_ai_usefulness d) == inject_Z k)%Q
    /\ Page.format_1f (compute_ai_usefulness d)
       = Some (Page.decimal k ++ ".0")
    /\ Page.num_le (compute_ai_usefulness d) 3 = (k <=? 3)
    /\ Page.num_le (compute_ai_usefulness d) 7 = (k <=? 7).
Proof.
  rewrite compute_ai_usefulness_eq.
  pose proof (clamped_score_bounds d) as Hb.
  destruct (hard_stop d && (3 <? clamped_score d)).
  - exists 3. split; [lia|]. split; [reflexivity|].
    repeat split; vm_compute; reflexivity.
  - exists (clamped_score d). split; [exact Hb|]. split; [reflexivity|].
    split; [|split; reflexivity].
    assert (H : In (clamped_score d) [0; 1; 2; 3; 4; 5; 6; 7; 8; 9; 10]).
    { simpl. lia. }
    generalize dependent (clamped_score d). intros c _ H.
    repeat (destruct H as [<- | H]; [vm_compute; reflexivity|]).
    destruct H.
Qed.

(** X14. When it renders, the section shows exactly six widgets, for the
    whole number k in 0..10 that the score equals: the header
    "### AI Usefulness Score: **k.0/10**"; the banner of the band of k
    (red "AI not recommended" for k <= 3, orange "adjunct" for k <= 7,
    green "great use-case" above), as HTML; that band's summary; the
    heading "#### Dimension breakdown"; the table of the five dimension
    labels and the five scores; and the expander "Why did I get this
    score? (rules that fired)" with one bullet "- r" per rationale, of
    which there are five. *)
Theorem results_section_shows_score (question : string) :
  blank question = false ->
  let d := analyze_dimensions question in
  exists k : Z,
    0 <= k <= 10
    /\ (value (compute_ai_usefulness d) == inject_Z k)%Q
    /\ Page.results_section true question
       = Some
           [ Page.markdown
               ("### AI Usefulness Score: **" ++ (Page.decimal k ++ ".0")
                ++ "/10**") false;
             Page.markdown
               (if k <=? 3 then
                  "**<span style='color:red'>❌ AI not recommended as a starting point</span>**"
                else if k <=? 7 then
                  "**<span style='color:orange'>⚠️ Use AI only as an adjunct (and verify)</span>**"
                else
                  "**<span style='color:green'>✅ Great use-case for AI as an information helper</span>**")
               true;
             Page.markdown
               (if k <=? 3 then
                  "This question likely involves **time-critical, high-risk, or protocol-driven decisions**. Prioritize **stabilizing the patient, using local protocols, and speaking with a senior/attending**. AI can still be used later for debriefing or education."
                else if k <=? 7 then
                  "AI may be helpful for **finding evidence, exploring options, and clarifying mechanisms**, but you should **cross-check with guidelines/UpToDate and your team** before changing management."
                else
                  "This looks like a good situation to use AI for **literature synthesis, guideline summaries, and explanations**. Still treat outputs as **informational**, not as direct orders.")
               false;
             Page.markdown "#### Dimension breakdown" false;
             Page.table
               [ "Time urgency (0–2, higher = less urgent)";
                 "Risk level (0–2, higher = safer to experiment)";
                 "Protocol independence (0–2)";
                 "Evidence orientation (0–2)";
                 "Educational frame (0–2)" ]
               [ time_urgency d; risk_level d; protocol_independence d;
                 evidence_orientation d; educational_frame d ];
             Page.expander "Why did I get this score? (rules that fired)"
               (map (fun r => Page.markdown ("- " ++ r) false) (reasons d)) ]
    /\ List.length (reasons d) = 5%nat.
Proof.
  intros Hb d. unfold Page.results_section. rewrite truthy_strip, Hb.
  cbn [andb negb]. fold d.
  destruct (score_on_page d) as (k & Hk & Hv & Hf & H3 & H7).
  unfold Page.band. rewrite Hf, H3, H7.
  exists k. split; [exact Hk|]. split; [exact Hv|]. split.
  - destruct (k <=? 3); [reflexivity|].
    destruct (k <=? 7); reflexivity.
  - subst d. destruct (analyze_dimensions_run question)
      as (tu & r1 & rl & r2 & pi & r3 & eo & r4 & ef & r5 & -> & _).
    reflexivity.
Qed.

Lemma results_section_shows_score_witness :
  blank "DOAC vs warfarin: what does the evidence say?" = false
  /\ exists (k : Z) (rest : list Page.widget),
       0 <= k <= 10
       /\ Page.results_section true
            "DOAC vs warfarin: what does the evidence say?"
          = Some
              (Page.markdown
                 ("### AI Usefulness Score: **" ++ (Page.decimal k ++ ".0")
                  ++ "/10**") false
               :: rest).
Proof.
  assert (Hb : blank "DOAC vs warfarin: what does the evidence say?"
               = false) by reflexivity.
  split; [exact Hb|].
  destruct (results_section_shows_score _ Hb) as (k & Hk & _ & Heq & _).
  exists k. eexists. split; [exact Hk | exact Heq].
Defined.

(** X15. Whenever the button is clicked on a question that sets
    [hard_stop], the section shows the red "AI not recommended" banner. *)
Theorem hard_stop_renders_red (question : string) :
  hard_stop (analyze_dimensions question) = true ->
  exists header rest,
    Page.results_section true question
    = Some
        (header
         :: Page.markdown
              "**<span style='color:red'>❌ AI not recommended as a starting point</span>**"
              true
         :: rest).
Proof.
  intros Hs.
  assert (Hb : blank question = false).
  { destruct (analyze_dimensions_scores question)
      as (_ & _ & _ & _ & _ & Heq).
    rewrite Heq in Hs. apply orb_true_iff in Hs.
    destruct Hs as [H | H];
      [ apply (any_in_not_blank time_critical_terms)
      | apply (any_in_not_blank high_risk_terms) ];
      try exact H;
      intros p Hp; unfold all_terms; rewrite !in_app_iff; tauto. }
  unfold Page.results_section. rewrite truthy_strip, Hb.
  cbn [andb negb].
  destruct (format_1f_score (analyze_dimensions question))
    as (k & _ & _ & ->).
  assert (Hle : Page.num_le
                  (compute_ai_usefulness (analyze_dimensions question)) 3
                = true).
  { rewrite compute_ai_usefulness_eq, Hs. cbn [andb].
    destruct (3 <? clamped_score (analyze_dimensions question)) eqn:Hlt.
    - reflexivity.
    - cbn [Page.num_le]. apply Z.leb_le. now apply Z.ltb_ge. }
  unfold Page.band. rewrite Hle.
  do 2 eexists. reflexivity.
Qed.

Lemma hard_stop_renders_red_witness :
  hard_stop (analyze_dimensions "Should I push-dose epi?") = true
  /\ exists header rest,
       Page.results_section true "Should I push-dose epi?"
       = Some
           (header
            :: Page.markdown
                 "**<span style='color:red'>❌ AI not recommended as a starting point</span>**"
                 true
            :: rest).
Proof.
  assert (Hs : hard_stop (analyze_dimensions "Should I push-dose epi?")
               = true) by (vm_compute; reflexivity).
  split; [exact Hs | exact (hard_stop_renders_red _ Hs)].
Defined.

(** X16. Whitespace around the question changes nothing: the analysis of
    the question as typed (the page does not strip it before the call)
    equals the analysis of the stripped question, and so does everything
    the section renders. *)
Theorem whitespace_around_question_ignored (question : string) :
  analyze_dimensions (Page.strip question) = analyze_dimensions question
  /\ forall clicked : bool,
       Page.results_section clicked (Page.strip question)
       = Page.results_section clicked question.
Proof.
  assert (H : analyze_dimensions (Page.strip question)
              = analyze_dimensions question).
  { apply analyze_dimensions_agree. intros p Hp.
    rewrite lower_strip. apply contains_strip.
    now apply all_terms_solid. }
  split; [exact H|]. intros clicked.
  unfold Page.results_section.
  rewrite !truthy_strip, blank_strip, H. reflexivity.
Qed.
